(** * Frame header of the zero-copy yamux proof of concept (src/main.rs)

    Shallow embedding of the packed [Header] record, of the zerocopy
    network-endian integers it is built from, and of the [Frame] overlay
    that [Frame::parse] lays over a caller-supplied byte buffer.

    Bytes are [Z] values in [0, 256); a buffer is a [list Z].  The buffer
    is the shared store: a [Frame] holds two slices (offset and length)
    into it, the header slice and the body slice, the way [Ref<B, _>] and
    [B] borrow the caller's buffer, so reads through the frame and writes
    by [set_tag] act on that store and not on a copy. *)

From Stdlib Require Import ZArith List Lia.
Import ListNotations.
Open Scope Z_scope.

(** ** zerocopy::byteorder::network_endian::{U16, U32} *)

(** [U16] is stored as its two bytes, most significant first. *)
Record U16 := mkU16 { u16_b0 : Z; u16_b1 : Z }.

(** [u16::into::<U16>]: [U16::new(v)], i.e. [v.to_be_bytes()]. *)
Definition U16_new (v : Z) : U16 :=
  mkU16 ((v / 256) mod 256) (v mod 256).

(** [U16::get]: [u16::from_be_bytes]. *)
Definition U16_get (x : U16) : Z :=
  u16_b0 x * 256 + u16_b1 x.

Definition U16_bytes (x : U16) : list Z := [u16_b0 x; u16_b1 x].

(** [U32] is stored as its four bytes, most significant first. *)
Record U32 := mkU32 { u32_b0 : Z; u32_b1 : Z; u32_b2 : Z; u32_b3 : Z }.

(** [u32::into::<U32>]: [U32::new(v)], i.e. [v.to_be_bytes()]. *)
Definition U32_new (v : Z) : U32 :=
  mkU32 ((v / 16777216) mod 256) ((v / 65536) mod 256)
        ((v / 256) mod 256) (v mod 256).

(** [U32::get]: [u32::from_be_bytes]. *)
Definition U32_get (x : U32) : Z :=
  u32_b0 x * 16777216 + u32_b1 x * 65536 + u32_b2 x * 256 + u32_b3 x.

Definition U32_bytes (x : U32) : list Z :=
  [u32_b0 x; u32_b1 x; u32_b2 x; u32_b3 x].

(** ** Field types *)

Record Version := mkVersion { version_0 : Z }.

Record Len := mkLen { len_0 : U32 }.

(** [Len::val]. *)
Definition Len_val (l : Len) : Z := U32_get (len_0 l).

Record StreamId := mkStreamId { stream_id_0 : U32 }.

(** [StreamId::new]. *)
Definition StreamId_new (v : Z) : StreamId := mkStreamId (U32_new v).

(** [StreamId::val]. *)
Definition StreamId_val (s : StreamId) : Z := U32_get (stream_id_0 s).

Record Flags := mkFlags { flags_0 : U16 }.

(** ** [Tag] and [TryFrom<u8> for Tag] *)

Inductive Tag := Data | WindowUpdate | Ping | GoAway.

(** The [Err(())] of [TryFrom] is [None]. *)
Definition Tag_try_from (value : Z) : option Tag :=
  if Z.eqb value 0 then Some Data
  else if Z.eqb value 1 then Some WindowUpdate
  else if Z.eqb value 2 then Some Ping
  else if Z.eqb value 3 then Some GoAway
  else None.

(** [tag as u8]: the enum discriminant. *)
Definition Tag_as_u8 (t : Tag) : Z :=
  match t with
  | Data => 0
  | WindowUpdate => 1
  | Ping => 2
  | GoAway => 3
  end.

(** ** [Header<T>]: [#[repr(packed)]], the [PhantomData<T>] marker has
    no bytes, so [T] is a parameter without a field. *)

Record Header (T : Type) := mkHeader {
  version : Version;
  tag : Z;
  flags : Flags;
  stream_id : StreamId;
  length : Len
}.
Arguments mkHeader {T} _ _ _ _ _.
Arguments version {T} _.
Arguments tag {T} _.
Arguments flags {T} _.
Arguments stream_id {T} _.
Arguments length {T} _.

(** [AsBytes::as_bytes] of the packed record: the fields in declaration
    order, with no padding. *)
Definition Header_as_bytes {T} (h : Header T) : list Z :=
  [version_0 (version h); tag h]
    ++ U16_bytes (flags_0 (flags h))
    ++ U32_bytes (stream_id_0 (stream_id h))
    ++ U32_bytes (len_0 (length h)).

(** [size_of::<Header<T>>()]: the sum of the field widths
    (1 + 1 + 2 + 4 + 4), the marker being zero-sized and packing
    removing any padding. *)
Definition Header_size : nat := 1 + 1 + 2 + 4 + 4.

(** Reading the packed record in place from its bytes ([FromBytes]). *)
Definition Header_from_bytes {T} (b : list Z) : Header T :=
  let byte i := nth i b 0 in
  mkHeader (mkVersion (byte 0%nat)) (byte 1%nat)
    (mkFlags (mkU16 (byte 2%nat) (byte 3%nat)))
    (mkStreamId (mkU32 (byte 4%nat) (byte 5%nat) (byte 6%nat) (byte 7%nat)))
    (mkLen (mkU32 (byte 8%nat) (byte 9%nat) (byte 10%nat) (byte 11%nat))).

(** Marker type [Data] of [Header<Data>]. *)
Inductive DataMarker := mkDataMarker.

(** [Header::<Data>::data]. *)
Definition Header_data (id : StreamId) (len : Z) : Header DataMarker :=
  mkHeader (mkVersion 0) (Tag_as_u8 Data) (mkFlags (U16_new 0)) id
    (mkLen (U32_new len)).

(** ** The buffer as a store, and slices borrowing it *)

(** A borrowed byte slice ([&[u8]] or [&mut [u8]]): a window of the
    caller's buffer. *)
Record Slice := mkSlice { off : nat; len : nat }.

(** The bytes a slice currently sees in the store. *)
Definition slice_bytes (st : list Z) (s : Slice) : list Z :=
  firstn (len s) (skipn (off s) st).

(** The whole buffer as a slice ([&mut bytes[..]] in [main]). *)
Definition buffer (st : list Z) : Slice := mkSlice 0 (List.length st).

(** Writing one byte of the store in place. *)
Fixpoint store_write (st : list Z) (i : nat) (v : Z) : list Z :=
  match st, i with
  | [], _ => []
  | _ :: rest, O => v :: rest
  | x :: rest, S j => x :: store_write rest j v
  end.

(** [Ref::new_from_prefix]: the header type is packed (alignment 1), so
    the only check is the length; the prefix and the rest are two
    sub-slices of the same buffer. *)
Definition Ref_new_from_prefix (s : Slice) : option (Slice * Slice) :=
  if Nat.ltb (len s) Header_size then None
  else Some (mkSlice (off s) Header_size,
             mkSlice (off s + Header_size) (len s - Header_size)).

(** [Frame<B, T>]: the header [Ref] and the body [B], both borrowing the
    store. *)
Record Frame := mkFrame { header : Slice; body : Slice }.

(** [frame.header.tag]: the byte at offset 1 of the header slice. *)
Definition frame_header {T} (st : list Z) (f : Frame) : Header T :=
  Header_from_bytes (slice_bytes st (header f)).

(** [Frame::parse]: the [?] on the prefix split, then the tag check. *)
Definition parse {T} (st : list Z) (bytes : Slice) : option Frame :=
  match Ref_new_from_prefix bytes with
  | None => None
  | Some (h, b) =>
      let frame := mkFrame h b in
      match Tag_try_from (tag (frame_header (T := T) st frame)) with
      | Some _ => Some frame
      | None => None
      end
  end.

(** [Frame::version]. *)
Definition frame_version {T} (st : list Z) (f : Frame) : Version :=
  version (frame_header (T := T) st f).

(** [Frame::length]. *)
Definition frame_length {T} (st : list Z) (f : Frame) : Len :=
  length (frame_header (T := T) st f).

(** [frame.body]. *)
Definition frame_body (st : list Z) (f : Frame) : list Z :=
  slice_bytes st (body f).

(** [Frame::set_tag] (the [ByteSliceMut] variant):
    [self.header.tag = tag as u8] writes the byte at offset 1 of the
    header slice in the caller's buffer. *)
Definition set_tag (st : list Z) (f : Frame) (t : Tag) : list Z :=
  store_write st (off (header f) + 1) (Tag_as_u8 t).

(** The input of [main]. *)
Definition main_bytes : list Z :=
  [1; 2; 1; 0; 0; 0; 0; 1; 0; 0; 0; 3; 1; 2; 3].

Example parse_main_bytes :
  parse (T := DataMarker) main_bytes (buffer main_bytes)
  = Some (mkFrame (mkSlice 0 12) (mkSlice 12 3)).
Proof. reflexivity. Qed.

(** ** Helper lemmas *)

Lemma U16_get_new (v : Z) :
  0 <= v < 65536 -> U16_get (U16_new v) = v.
Proof.
  intros Hv. unfold U16_get, U16_new; cbn.
  pose proof (Z.div_mod (v / 256) 256 ltac:(lia)).
  pose proof (Z.mod_pos_bound (v / 256) 256 ltac:(lia)).
  pose proof (Z.div_mod v 256 ltac:(lia)).
  pose proof (Z.mod_pos_bound v 256 ltac:(lia)).
  lia.
Qed.

Lemma U32_get_new (v : Z) :
  0 <= v < 4294967296 -> U32_get (U32_new v) = v.
Proof.
  intros Hv. unfold U32_get, U32_new; cbn.
  replace (v / 16777216) with (v / 256 / 256 / 256)
    by (rewrite !Z.div_div by lia; reflexivity).
  replace (v / 65536) with (v / 256 / 256)
    by (rewrite !Z.div_div by lia; reflexivity).
  pose proof (Z.div_mod (v / 256 / 256 / 256) 256 ltac:(lia)).
  pose proof (Z.mod_pos_bound (v / 256 / 256 / 256) 256 ltac:(lia)).
  pose proof (Z.div_mod (v / 256 / 256) 256 ltac:(lia)).
  pose proof (Z.mod_pos_bound (v / 256 / 256) 256 ltac:(lia)).
  pose proof (Z.div_mod (v / 256) 256 ltac:(lia)).
  pose proof (Z.mod_pos_bound (v / 256) 256 ltac:(lia)).
  pose proof (Z.div_mod v 256 ltac:(lia)).
  pose proof (Z.mod_pos_bound v 256 ltac:(lia)).
  lia.
Qed.

(** [parse] over a whole buffer, unfolded: the length check, then the
    tag byte at offset 1. *)
Lemma parse_buffer {T} (st : list Z) :
  parse (T := T) st (buffer st)
  = if Nat.ltb (List.length st) 12 then None
    else match Tag_try_from (nth 1 st 0) with
         | Some _ => Some (mkFrame (mkSlice 0 12) (mkSlice 12 (List.length st - 12)))
         | None => None
         end.
Proof.
  unfold parse, Ref_new_from_prefix, buffer, Header_size; cbn [len off].
  change (1 + 1 + 2 + 4 + 4)%nat with 12%nat; cbn [Nat.add].
  destruct (Nat.ltb (List.length st) 12) eqn:E; [reflexivity|].
  apply Nat.ltb_ge in E.
  unfold frame_header, Header_from_bytes, slice_bytes; cbn [header off len tag skipn].
  rewrite nth_firstn. reflexivity.
Qed.

Lemma Tag_try_from_as_u8 (t : Tag) : Tag_try_from (Tag_as_u8 t) = Some t.
Proof. destruct t; reflexivity. Qed.

Lemma Tag_try_from_ge4 (v : Z) : 4 <= v -> Tag_try_from v = None.
Proof.
  intros Hv. unfold Tag_try_from.
  repeat match goal with |- context [Z.eqb ?a ?b] =>
    destruct (Z.eqb_spec a b); [lia|] end.
  reflexivity.
Qed.

Lemma store_write_length (st : list Z) (i : nat) (v : Z) :
  List.length (store_write st i v) = List.length st.
Proof.
  revert i; induction st as [|x st IH]; intros [|i]; cbn; auto.
Qed.

Lemma store_write_nth_error (st : list Z) (i j : nat) (v : Z) :
  nth_error (store_write st i v) j
  = if Nat.eqb i j then (if Nat.ltb j (List.length st) then Some v else None)
    else nth_error st j.
Proof.
  revert i j; induction st as [|x st IH]; intros [|i] [|j]; cbn; auto;
    try (destruct (Nat.eqb _ _); reflexivity).
Qed.

(** ** Claims *)

(** C1 (counterexample): the byte representation of a header is not 13
    bytes long; here the header made by [Header::data]. *)
Lemma C1_header_not_13_bytes :
  List.length (Header_as_bytes (Header_data (StreamId_new 0) 0)) <> 13%nat.
Proof. cbn. discriminate. Qed.

(** C1 (amended): the packed header lays out version (byte 0), tag
    (byte 1), flags (bytes 2-3, most significant first), stream_id
    (bytes 4-7, most significant first) and length (bytes 8-11, most
    significant first), with no padding, and its byte representation is
    exactly 12 bytes long. *)
Theorem C1_header_layout_12_bytes {T} (h : Header T) :
  Header_as_bytes h
  = [version_0 (version h); tag h;
     u16_b0 (flags_0 (flags h)); u16_b1 (flags_0 (flags h));
     u32_b0 (stream_id_0 (stream_id h)); u32_b1 (stream_id_0 (stream_id h));
     u32_b2 (stream_id_0 (stream_id h)); u32_b3 (stream_id_0 (stream_id h));
     u32_b0 (len_0 (length h)); u32_b1 (len_0 (length h));
     u32_b2 (len_0 (length h)); u32_b3 (len_0 (length h))]
  /\ List.length (Header_as_bytes h) = Header_size
  /\ Header_size = 12%nat.
Proof. repeat split. Qed.

(** C2 (counterexample): a 12-byte buffer, shorter than 13 bytes, with
    tag byte 0 parses into a frame with an empty body. *)
Lemma C2_twelve_byte_buffer_parses :
  parse (T := DataMarker) (repeat 0 12) (buffer (repeat 0 12))
  = Some (mkFrame (mkSlice 0 12) (mkSlice 12 0)).
Proof. reflexivity. Qed.

(** C2 (amended): every buffer shorter than the 12-byte header (lengths
    0..11) is rejected by [parse], and every 12-byte buffer whose tag
    byte is a valid [Tag] parses into a frame with a 12-byte header and
    an empty body. *)
Theorem C2_short_buffer_rejected {T} (st : list Z) :
  ((List.length st < 12)%nat -> parse (T := T) st (buffer st) = None)
  /\ (List.length st = 12%nat -> Tag_try_from (nth 1 st 0) <> None ->
      parse (T := T) st (buffer st)
        = Some (mkFrame (mkSlice 0 12) (mkSlice 12 0))
      /\ frame_body st (mkFrame (mkSlice 0 12) (mkSlice 12 0)) = []).
Proof.
  split.
  - intros Hlen. rewrite parse_buffer.
    apply Nat.ltb_lt in Hlen. rewrite Hlen. reflexivity.
  - intros Hlen Htag. rewrite parse_buffer, Hlen. cbn [Nat.ltb Nat.leb Nat.sub].
    destruct (Tag_try_from (nth 1 st 0)); [|contradiction].
    split; [reflexivity|].
    unfold frame_body, slice_bytes. reflexivity.
Qed.

Lemma C2_short_buffer_rejected_witness :
  parse (T := DataMarker) (repeat 0 11) (buffer (repeat 0 11)) = None
  /\ parse (T := DataMarker) [7; 3; 0; 0; 0; 0; 0; 9; 0; 0; 0; 5]
       (buffer [7; 3; 0; 0; 0; 0; 0; 9; 0; 0; 0; 5])
     = Some (mkFrame (mkSlice 0 12) (mkSlice 12 0)).
Proof.
  split.
  - apply (proj1 (C2_short_buffer_rejected (T := DataMarker) (repeat 0 11))).
    cbn; lia.
  - apply (proj2 (C2_short_buffer_rejected (T := DataMarker)
                    [7; 3; 0; 0; 0; 0; 0; 9; 0; 0; 0; 5]));
      [reflexivity | cbn; discriminate].
Defined.

(** C3: a buffer whose tag byte (offset 1) is 4 or more is rejected by
    [parse], whatever its length. *)
Theorem C3_invalid_tag_rejected {T} (st : list Z) (t : Z) :
  nth_error st 1 = Some t -> 4 <= t -> parse (T := T) st (buffer st) = None.
Proof.
  intros Ht Hge. rewrite parse_buffer.
  destruct (Nat.ltb (List.length st) 12); [reflexivity|].
  rewrite (nth_error_nth st 1 0 Ht), (Tag_try_from_ge4 t Hge). reflexivity.
Qed.

Lemma C3_invalid_tag_rejected_witness :
  let st := [0; 4; 0; 0; 0; 0; 0; 1; 0; 0; 0; 0; 0] in
  nth_error st 1 = Some 4 /\ 4 <= 4
  /\ parse (T := DataMarker) st (buffer st) = None.
Proof.
  cbv zeta. split; [reflexivity|]. split; [lia|].
  apply (C3_invalid_tag_rejected (T := DataMarker) _ 4); [reflexivity | lia].
Defined.

(** C4: encoding a header with any version byte, any tag, and flags,
    stream_id and length in range, followed by any body, then parsing
    the bytes gives a frame whose accessors report the same values. *)
Theorem C4_encode_parse_roundtrip {T} (v : Z) (t : Tag) (f sid l : Z)
    (bd : list Z) :
  0 <= f < 65536 -> 0 <= sid < 4294967296 -> 0 <= l < 4294967296 ->
  let h : Header T :=
    mkHeader (mkVersion v) (Tag_as_u8 t) (mkFlags (U16_new f))
      (StreamId_new sid) (mkLen (U32_new l)) in
  let st := Header_as_bytes h ++ bd in
  exists fr, parse (T := T) st (buffer st) = Some fr
    /\ version_0 (frame_version (T := T) st fr) = v
    /\ tag (frame_header (T := T) st fr) = Tag_as_u8 t
    /\ Tag_try_from (tag (frame_header (T := T) st fr)) = Some t
    /\ U16_get (flags_0 (flags (frame_header (T := T) st fr))) = f
    /\ StreamId_val (stream_id (frame_header (T := T) st fr)) = sid
    /\ Len_val (frame_length (T := T) st fr) = l.
Proof.
  intros Hf Hs Hl h st.
  exists (mkFrame (mkSlice 0 12) (mkSlice 12 (List.length bd))).
  rewrite parse_buffer. subst st h. cbn [Header_as_bytes app U16_bytes U32_bytes].
  cbn [List.length nth version flags stream_id length tag StreamId_new flags_0
       stream_id_0 len_0 version_0].
  rewrite Tag_try_from_as_u8. cbn [Nat.ltb Nat.leb Nat.sub].
  rewrite Nat.sub_0_r. split; [reflexivity|].
  unfold frame_version, frame_length, frame_header, Header_from_bytes,
    slice_bytes, StreamId_val, Len_val.
  cbn -[U16_new U32_new U16_get U32_get Tag_try_from Tag_as_u8].
  rewrite Tag_try_from_as_u8.
  repeat split.
  - apply U16_get_new; exact Hf.
  - apply U32_get_new; exact Hs.
  - apply U32_get_new; exact Hl.
Qed.

Lemma C4_encode_parse_roundtrip_witness :
  0 <= 256 < 65536 /\ 0 <= 7 < 4294967296 /\ 0 <= 70000 < 4294967296 /\
  let h : Header DataMarker :=
    mkHeader (mkVersion 1) (Tag_as_u8 Ping) (mkFlags (U16_new 256))
      (StreamId_new 7) (mkLen (U32_new 70000)) in
  let st := Header_as_bytes h ++ [9] in
  exists fr, parse (T := DataMarker) st (buffer st) = Some fr
    /\ version_0 (frame_version (T := DataMarker) st fr) = 1
    /\ tag (frame_header (T := DataMarker) st fr) = Tag_as_u8 Ping
    /\ Tag_try_from (tag (frame_header (T := DataMarker) st fr)) = Some Ping
    /\ U16_get (flags_0 (flags (frame_header (T := DataMarker) st fr))) = 256
    /\ StreamId_val (stream_id (frame_header (T := DataMarker) st fr)) = 7
    /\ Len_val (frame_length (T := DataMarker) st fr) = 70000.
Proof.
  split; [lia|]. split; [lia|]. split; [lia|].
  apply (C4_encode_parse_roundtrip (T := DataMarker) 1 Ping 256 7 70000 [9]);
    lia.
Defined.

(** C5 (counterexample): on the 15-byte buffer of [main] the body is 3
    bytes long, not 15 - 13 = 2. *)
Lemma C5_body_not_len_minus_13 :
  ~ (forall (st : list Z) (f : Frame),
       parse (T := DataMarker) st (buffer st) = Some f ->
       List.length (frame_body st f) = (List.length st - 13)%nat
       /\ nth_error (frame_body st f) 0 = nth_error st 13).
Proof.
  intros H.
  destruct (H main_bytes (mkFrame (mkSlice 0 12) (mkSlice 12 3))
              parse_main_bytes) as [Hlen _].
  cbn in Hlen. discriminate.
Qed.

(** C5 (amended): when [parse] succeeds on a buffer of length L, the
    body is the slice of the same buffer starting at offset 12, of
    length L - 12, and its first byte is the buffer's byte at offset
    12. *)
Theorem C5_body_aliases_suffix {T} (st : list Z) (f : Frame) :
  parse (T := T) st (buffer st) = Some f ->
  body f = mkSlice 12 (List.length st - 12)
  /\ frame_body st f = skipn 12 st
  /\ List.length (frame_body st f) = (List.length st - 12)%nat
  /\ nth_error (frame_body st f) 0 = nth_error st 12.
Proof.
  rewrite parse_buffer.
  destruct (Nat.ltb (List.length st) 12); [discriminate|].
  destruct (Tag_try_from (nth 1 st 0)); [|discriminate].
  intros E; injection E as <-. cbn [body].
  assert (Hb : frame_body st (mkFrame (mkSlice 0 12) (mkSlice 12 (List.length st - 12)))
               = skipn 12 st).
  { unfold frame_body, slice_bytes; cbn [body off len].
    apply firstn_all2. rewrite length_skipn. lia. }
  rewrite Hb. split; [reflexivity|]. split; [reflexivity|].
  split; [apply length_skipn|].
  rewrite nth_error_skipn. reflexivity.
Qed.

Lemma C5_body_aliases_suffix_witness :
  parse (T := DataMarker) main_bytes (buffer main_bytes)
    = Some (mkFrame (mkSlice 0 12) (mkSlice 12 3))
  /\ nth_error (frame_body main_bytes (mkFrame (mkSlice 0 12) (mkSlice 12 3))) 0
     = nth_error main_bytes 12.
Proof.
  split; [reflexivity|].
  apply (C5_body_aliases_suffix (T := DataMarker) main_bytes _). reflexivity.
Defined.

(** C6: the 15-byte buffer of [main] parses into version 1, tag byte 2
    (Ping), stream_id 1, length 3 and the 3-byte body 01 02 03. *)
Theorem C6_main_example :
  exists fr, parse (T := DataMarker) main_bytes (buffer main_bytes) = Some fr
    /\ version_0 (frame_version (T := DataMarker) main_bytes fr) = 1
    /\ tag (frame_header (T := DataMarker) main_bytes fr) = 2
    /\ Tag_try_from (tag (frame_header (T := DataMarker) main_bytes fr)) = Some Ping
    /\ StreamId_val (stream_id (frame_header (T := DataMarker) main_bytes fr)) = 1
    /\ Len_val (frame_length (T := DataMarker) main_bytes fr) = 3
    /\ frame_body main_bytes fr = [1; 2; 3].
Proof.
  exists (mkFrame (mkSlice 0 12) (mkSlice 12 3)).
  repeat split; reflexivity.
Qed.

(** C7: [Header::data] always builds a header with version 0, tag Data
    (byte 0), flags 0, the given stream id, and a length field whose
    value is the given length. *)
Theorem C7_header_data_fields (id : StreamId) (l : Z) :
  0 <= l < 4294967296 ->
  let h := Header_data id l in
  version_0 (version h) = 0
  /\ tag h = 0 /\ Tag_try_from (tag h) = Some Data
  /\ U16_get (flags_0 (flags h)) = 0
  /\ stream_id h = id
  /\ Len_val (length h) = l.
Proof.
  intros Hl h. subst h.
  repeat split.
  apply U32_get_new; exact Hl.
Qed.

Lemma C7_header_data_fields_witness :
  0 <= 3 < 4294967296 /\
  let h := Header_data (StreamId_new 1) 3 in
  version_0 (version h) = 0
  /\ tag h = 0 /\ Tag_try_from (tag h) = Some Data
  /\ U16_get (flags_0 (flags h)) = 0
  /\ stream_id h = StreamId_new 1
  /\ Len_val (length h) = 3.
Proof.
  split; [lia|]. apply C7_header_data_fields. lia.
Defined.

(** A frame returned by [parse] on a whole buffer covers it from offset
    0, with a 12-byte header slice. *)
Lemma parse_buffer_Some {T} (st : list Z) (f : Frame) :
  parse (T := T) st (buffer st) = Some f ->
  (12 <= List.length st)%nat /\ header f = mkSlice 0 12
  /\ body f = mkSlice 12 (List.length st - 12).
Proof.
  rewrite parse_buffer.
  destruct (Nat.ltb (List.length st) 12) eqn:E; [discriminate|].
  apply Nat.ltb_ge in E.
  destruct (Tag_try_from (nth 1 st 0)); [|discriminate].
  intros H; injection H as <-. auto.
Qed.

(** C8: [set_tag] on a parsed frame writes the tag's discriminant into
    byte 1 of the caller's buffer itself: reading the buffer afterwards
    shows it, the frame's header reads it, and every other byte of the
    buffer (so the body too) and its length are unchanged. *)
Theorem C8_set_tag_in_place {T} (st : list Z) (f : Frame) (t : Tag) :
  parse (T := T) st (buffer st) = Some f ->
  let st' := set_tag st f t in
  List.length st' = List.length st
  /\ nth_error st' 1 = Some (Tag_as_u8 t)
  /\ (forall i, i <> 1%nat -> nth_error st' i = nth_error st i)
  /\ tag (frame_header (T := T) st' f) = Tag_as_u8 t
  /\ frame_body st' f = frame_body st f.
Proof.
  intros Hp st'.
  destruct (parse_buffer_Some st f Hp) as (Hlen & Hh & Hb).
  assert (Hw : st' = store_write st 1 (Tag_as_u8 t))
    by (subst st'; unfold set_tag; rewrite Hh; reflexivity).
  assert (Hn : forall i, nth_error st' i
                 = if Nat.eqb 1 i
                   then (if Nat.ltb i (List.length st) then Some (Tag_as_u8 t) else None)
                   else nth_error st i)
    by (intros i; rewrite Hw; apply store_write_nth_error).
  assert (H1 : nth_error st' 1 = Some (Tag_as_u8 t)).
  { rewrite Hn. cbn [Nat.eqb].
    replace (Nat.ltb 1 (List.length st)) with true; [reflexivity|].
    symmetry. apply Nat.ltb_lt. lia. }
  assert (Hother : forall i, i <> 1%nat -> nth_error st' i = nth_error st i).
  { intros i Hi. rewrite Hn.
    replace (Nat.eqb 1 i) with false; [reflexivity|].
    symmetry. apply Nat.eqb_neq. lia. }
  assert (Hl' : List.length st' = List.length st)
    by (rewrite Hw; apply store_write_length).
  split; [exact Hl'|]. split; [exact H1|]. split; [exact Hother|]. split.
  - unfold frame_header, Header_from_bytes, slice_bytes. rewrite Hh.
    cbn [tag off len skipn]. rewrite nth_firstn. cbn [Nat.ltb Nat.leb].
    apply nth_error_nth. exact H1.
  - unfold frame_body, slice_bytes. rewrite Hb. cbn [off len].
    apply nth_error_ext. intros i.
    rewrite !nth_error_firstn, !nth_error_skipn.
    destruct (Nat.ltb i (List.length st - 12)); [|reflexivity].
    apply Hother. lia.
Qed.

Lemma C8_set_tag_in_place_witness :
  parse (T := DataMarker) main_bytes (buffer main_bytes)
    = Some (mkFrame (mkSlice 0 12) (mkSlice 12 3))
  /\ nth_error (set_tag main_bytes (mkFrame (mkSlice 0 12) (mkSlice 12 3)) GoAway) 1
     = Some 3.
Proof.
  split; [reflexivity|].
  apply (C8_set_tag_in_place (T := DataMarker) main_bytes _ GoAway).
  reflexivity.
Defined.

(** C9 (counterexample): no function of [parse]'s result tells a buffer
    shorter than the header apart from a full-length buffer with an
    invalid tag byte: both give [None]. *)
Lemma C9_failures_indistinguishable :
  ~ (exists g : option Frame -> bool,
       forall st : list Z,
         ((List.length st < 12)%nat ->
            g (parse (T := DataMarker) st (buffer st)) = true)
         /\ ((12 <= List.length st)%nat -> Tag_try_from (nth 1 st 0) = None ->
            g (parse (T := DataMarker) st (buffer st)) = false)).
Proof.
  intros [g Hg].
  destruct (Hg []) as [Hshort _].
  destruct (Hg (repeat 4 12)) as [_ Hbad].
  specialize (Hshort ltac:(cbn; lia)).
  specialize (Hbad ltac:(cbn; lia) eq_refl).
  cbn in Hshort, Hbad. congruence.
Qed.

(** C9 (amended): [parse] returns [None] exactly when the buffer is
    shorter than the 12-byte header or its tag byte is not a [Tag]; both
    failures give the same [None]. *)
Theorem C9_parse_none_iff {T} (st : list Z) :
  parse (T := T) st (buffer st) = None
  <-> ((List.length st < 12)%nat \/ Tag_try_from (nth 1 st 0) = None).
Proof.
  rewrite parse_buffer.
  destruct (Nat.ltb (List.length st) 12) eqn:E.
  - apply Nat.ltb_lt in E. split; auto.
  - apply Nat.ltb_ge in E.
    destruct (Tag_try_from (nth 1 st 0)); split.
    + discriminate.
    + intros [H|H]; [lia|discriminate].
    + auto.
    + reflexivity.
Qed.

(** C10: [StreamId::new] followed by [StreamId::val], and the
    big-endian [U32] of [Len] followed by [Len::val], give back any
    [u32] value. *)
Theorem C10_u32_be_roundtrip (v : Z) :
  0 <= v < 4294967296 ->
  StreamId_val (StreamId_new v) = v /\ Len_val (mkLen (U32_new v)) = v.
Proof.
  intros Hv. unfold StreamId_val, StreamId_new, Len_val; cbn [stream_id_0 len_0].
  rewrite U32_get_new by exact Hv. auto.
Qed.

Lemma C10_u32_be_roundtrip_witness :
  0 <= 4294967295 < 4294967296
  /\ StreamId_val (StreamId_new 4294967295) = 4294967295
  /\ Len_val (mkLen (U32_new 4294967295)) = 4294967295.
Proof.
  split; [lia|]. apply C10_u32_be_roundtrip. lia.
Defined.

(** ** Further properties of the code *)

Lemma store_write_nth (st : list Z) (i j : nat) (v d : Z) :
  nth j (store_write st i v) d
  = if Nat.eqb i j then (if Nat.ltb j (List.length st) then v else d)
    else nth j st d.
Proof.
  revert i j; induction st as [|x st IH]; intros [|i] [|j]; cbn; auto;
    try (destruct (Nat.eqb _ _); reflexivity).
Qed.

Lemma store_write_store_write (st : list Z) (i : nat) (v w : Z) :
  store_write (store_write st i v) i w = store_write st i w.
Proof.
  revert i; induction st as [|x st IH]; intros [|i]; cbn; auto.
  rewrite IH. reflexivity.
Qed.

(** [TryFrom<u8> for Tag] inverts [tag as u8]: a byte converts to a tag
    exactly when it is that tag's discriminant. *)
Theorem Tag_try_from_iff (v : Z) (t : Tag) :
  Tag_try_from v = Some t <-> Tag_as_u8 t = v.
Proof.
  split.
  - unfold Tag_try_from.
    destruct (Z.eqb_spec v 0); [intros H; injection H as <-; cbn; lia|].
    destruct (Z.eqb_spec v 1); [intros H; injection H as <-; cbn; lia|].
    destruct (Z.eqb_spec v 2); [intros H; injection H as <-; cbn; lia|].
    destruct (Z.eqb_spec v 3); [intros H; injection H as <-; cbn; lia|].
    discriminate.
  - intros <-. apply Tag_try_from_as_u8.
Qed.

(** On a byte (0..255), [TryFrom<u8> for Tag] fails exactly on the
    values 4..255. *)
Theorem Tag_try_from_none_iff (v : Z) :
  0 <= v < 256 -> (Tag_try_from v = None <-> 4 <= v).
Proof.
  intros Hv. split.
  - intros H. destruct (Z.le_gt_cases 4 v) as [|Hlt]; [assumption|].
    exfalso. unfold Tag_try_from in H.
    destruct (Z.eqb_spec v 0); [discriminate|].
    destruct (Z.eqb_spec v 1); [discriminate|].
    destruct (Z.eqb_spec v 2); [discriminate|].
    destruct (Z.eqb_spec v 3); [discriminate|]. lia.
  - apply Tag_try_from_ge4.
Qed.

Lemma Tag_try_from_none_iff_witness :
  0 <= 200 < 256 /\ (Tag_try_from 200 = None <-> 4 <= 200).
Proof. split; [lia|]. apply Tag_try_from_none_iff. lia. Defined.

(** [U32::get] of any four bytes is a [u32] (below 2^32), and [U32::new]
    of it gives back the same four bytes. *)
Theorem U32_new_get (x : U32) :
  0 <= u32_b0 x < 256 -> 0 <= u32_b1 x < 256 ->
  0 <= u32_b2 x < 256 -> 0 <= u32_b3 x < 256 ->
  0 <= U32_get x < 4294967296 /\ U32_new (U32_get x) = x.
Proof.
  destruct x as [b0 b1 b2 b3]; cbn; intros H0 H1 H2 H3.
  unfold U32_get, U32_new; cbn. split; [lia|].
  set (v := b0 * 16777216 + b1 * 65536 + b2 * 256 + b3).
  assert (E24 : v / 16777216 = b0)
    by (symmetry; apply (Z.div_unique_pos _ _ _ (b1 * 65536 + b2 * 256 + b3)); lia).
  assert (E16 : v / 65536 = b0 * 256 + b1)
    by (symmetry; apply (Z.div_unique_pos _ _ _ (b2 * 256 + b3)); lia).
  assert (E8 : v / 256 = b0 * 65536 + b1 * 256 + b2)
    by (symmetry; apply (Z.div_unique_pos _ _ _ b3); lia).
  rewrite E24, E16, E8.
  f_equal.
  - apply Z.mod_small. lia.
  - symmetry. apply (Z.mod_unique_pos _ _ b0); lia.
  - symmetry. apply (Z.mod_unique_pos _ _ (b0 * 256 + b1)); lia.
  - symmetry. apply (Z.mod_unique_pos _ _ (b0 * 65536 + b1 * 256 + b2)); lia.
Qed.

Lemma U32_new_get_witness :
  0 <= 255 < 256 /\ 0 <= 0 < 256 /\ 0 <= 7 < 256 /\ 0 <= 128 < 256 /\
  0 <= U32_get (mkU32 255 0 7 128) < 4294967296
  /\ U32_new (U32_get (mkU32 255 0 7 128)) = mkU32 255 0 7 128.
Proof.
  do 4 (split; [lia|]). apply U32_new_get; cbn; lia.
Defined.

(** [U16] (the [Flags] field): [U16::new] then [U16::get] gives back any
    [u16], and [U16::get] of any two bytes is a [u16] that [U16::new]
    turns back into the same two bytes. *)
Theorem U16_roundtrip (v : Z) (x : U16) :
  0 <= v < 65536 -> 0 <= u16_b0 x < 256 -> 0 <= u16_b1 x < 256 ->
  U16_get (U16_new v) = v
  /\ 0 <= U16_get x < 65536 /\ U16_new (U16_get x) = x.
Proof.
  intros Hv. destruct x as [b0 b1]; cbn; intros H0 H1.
  split; [apply U16_get_new; exact Hv|].
  unfold U16_get, U16_new; cbn. split; [lia|].
  assert (E8 : (b0 * 256 + b1) / 256 = b0)
    by (symmetry; apply (Z.div_unique_pos _ _ _ b1); lia).
  rewrite E8. f_equal.
  - apply Z.mod_small. lia.
  - symmetry. apply (Z.mod_unique_pos _ _ b0); lia.
Qed.

Lemma U16_roundtrip_witness :
  0 <= 258 < 65536 /\ 0 <= 1 < 256 /\ 0 <= 2 < 256 /\
  U16_get (U16_new 258) = 258
  /\ 0 <= U16_get (mkU16 1 2) < 65536 /\ U16_new (U16_get (mkU16 1 2)) = mkU16 1 2.
Proof.
  do 3 (split; [lia|]). apply U16_roundtrip; cbn; lia.
Defined.

(** Reading a header in place from the bytes it serialises to gives the
    same header, and serialising the header read from any 12 bytes gives
    those bytes back. *)
Theorem Header_bytes_roundtrip {T} (h : Header T) (b : list Z) :
  List.length b = 12%nat ->
  Header_from_bytes (Header_as_bytes h) = h
  /\ Header_as_bytes (Header_from_bytes (T := T) b) = b.
Proof.
  intros Hb. split.
  - destruct h as [[v] t [[f0 f1]] [[s0 s1 s2 s3]] [[l0 l1 l2 l3]]].
    reflexivity.
  - do 12 (destruct b as [|? b]; [discriminate|]).
    destruct b; [reflexivity|discriminate].
Qed.

Lemma Header_bytes_roundtrip_witness :
  List.length (firstn 12 main_bytes) = 12%nat
  /\ Header_from_bytes (Header_as_bytes (Header_data (StreamId_new 5) 9))
     = Header_data (StreamId_new 5) 9
  /\ Header_as_bytes (Header_from_bytes (T := DataMarker) (firstn 12 main_bytes))
     = firstn 12 main_bytes.
Proof.
  split; [reflexivity|].
  apply Header_bytes_roundtrip. reflexivity.
Defined.

(** [parse] on any in-bounds sub-slice of a buffer succeeds exactly when
    it succeeds on a buffer holding just that slice's bytes; the frame it
    returns then borrows the slice's first 12 bytes as header and the
    rest of the slice as body, in place. *)
Theorem parse_sub_slice {T} (st : list Z) (s : Slice) :
  (off s + len s <= List.length st)%nat ->
  (parse (T := T) st s = None
   <-> parse (T := T) (slice_bytes st s) (buffer (slice_bytes st s)) = None)
  /\ (forall f, parse (T := T) st s = Some f ->
        header f = mkSlice (off s) 12
        /\ body f = mkSlice (off s + 12) (len s - 12)
        /\ frame_body st f = skipn 12 (slice_bytes st s)).
Proof.
  intros Hin.
  assert (Hl : List.length (slice_bytes st s) = len s).
  { unfold slice_bytes. rewrite length_firstn, length_skipn. lia. }
  rewrite parse_buffer, Hl.
  unfold parse, Ref_new_from_prefix, Header_size.
  change (1 + 1 + 2 + 4 + 4)%nat with 12%nat.
  destruct (Nat.ltb (len s) 12) eqn:E.
  - split; [tauto|]. discriminate.
  - apply Nat.ltb_ge in E.
    unfold frame_header, Header_from_bytes, slice_bytes;
      cbn [header off len tag].
    rewrite !nth_firstn.
    replace (Nat.ltb 1 (len s)) with true by (symmetry; apply Nat.ltb_lt; lia).
    replace (Nat.ltb 1 12) with true by reflexivity.
    destruct (Tag_try_from (nth 1 (skipn (off s) st) 0)).
    + split; [split; intros Hc; discriminate Hc|].
      intros f Hf; injection Hf as <-. cbn [header body off len].
      split; [reflexivity|]. split; [reflexivity|].
      unfold frame_body, slice_bytes; cbn [body off len].
      rewrite skipn_firstn_comm, skipn_skipn.
      replace (12 + off s)%nat with (off s + 12)%nat by lia. reflexivity.
    + split; [tauto|]. discriminate.
Qed.

Lemma parse_sub_slice_witness :
  let st := [9; 9] ++ main_bytes in
  (off (mkSlice 2 15) + len (mkSlice 2 15) <= List.length st)%nat
  /\ parse (T := DataMarker) st (mkSlice 2 15)
     = Some (mkFrame (mkSlice 2 12) (mkSlice 14 3))
  /\ frame_body st (mkFrame (mkSlice 2 12) (mkSlice 14 3))
     = skipn 12 (slice_bytes st (mkSlice 2 15)).
Proof.
  cbv zeta. split; [cbn; lia|]. split; [reflexivity|].
  apply (proj2 (parse_sub_slice (T := DataMarker) ([9; 9] ++ main_bytes)
                  (mkSlice 2 15) ltac:(cbn; lia))).
  reflexivity.
Defined.

(** [parse] reads no byte but the tag byte: whatever any other byte of
    the buffer holds (version, flags, stream_id, the declared length,
    the body), the same frame is returned; in particular the declared
    length is never checked against the body. *)
Theorem parse_ignores_other_bytes {T} (st : list Z) (f : Frame) (i : nat) (v : Z) :
  parse (T := T) st (buffer st) = Some f -> i <> 1%nat ->
  parse (T := T) (store_write st i v) (buffer (store_write st i v)) = Some f.
Proof.
  intros Hp Hi. revert Hp. rewrite !parse_buffer, store_write_length, store_write_nth.
  replace (Nat.eqb i 1) with false by (symmetry; apply Nat.eqb_neq; exact Hi).
  exact (fun H => H).
Qed.

Lemma parse_ignores_other_bytes_witness :
  parse (T := DataMarker) main_bytes (buffer main_bytes)
    = Some (mkFrame (mkSlice 0 12) (mkSlice 12 3))
  /\ (11 <> 1)%nat
  /\ parse (T := DataMarker) (store_write main_bytes 11 200)
       (buffer (store_write main_bytes 11 200))
     = Some (mkFrame (mkSlice 0 12) (mkSlice 12 3)).
Proof.
  split; [reflexivity|]. split; [lia|].
  apply parse_ignores_other_bytes; [reflexivity|lia].
Defined.

(** After [set_tag], the buffer still parses, into the same frame, whose
    tag byte now converts to the tag written. *)
Theorem set_tag_reparse {T} (st : list Z) (f : Frame) (t : Tag) :
  parse (T := T) st (buffer st) = Some f ->
  parse (T := T) (set_tag st f t) (buffer (set_tag st f t)) = Some f
  /\ Tag_try_from (tag (frame_header (T := T) (set_tag st f t) f)) = Some t.
Proof.
  intros Hp.
  destruct (parse_buffer_Some st f Hp) as (Hlen & Hh & Hb).
  unfold set_tag. rewrite Hh. cbn [off Nat.add].
  assert (H1 : nth 1 (store_write st 1 (Tag_as_u8 t)) 0 = Tag_as_u8 t).
  { rewrite store_write_nth. cbn [Nat.eqb].
    replace (Nat.ltb 1 (List.length st)) with true; [reflexivity|].
    symmetry. apply Nat.ltb_lt. lia. }
  split.
  - revert Hp. rewrite !parse_buffer, store_write_length, H1, Tag_try_from_as_u8.
    destruct (Nat.ltb (List.length st) 12); [discriminate|].
    destruct (Tag_try_from (nth 1 st 0)); [exact (fun H => H)|discriminate].
  - unfold frame_header, Header_from_bytes, slice_bytes. rewrite Hh.
    cbn [tag off len skipn]. rewrite nth_firstn. cbn [Nat.ltb Nat.leb].
    rewrite H1. apply Tag_try_from_as_u8.
Qed.

Lemma set_tag_reparse_witness :
  parse (T := DataMarker) main_bytes (buffer main_bytes)
    = Some (mkFrame (mkSlice 0 12) (mkSlice 12 3))
  /\ Tag_try_from (tag (frame_header (T := DataMarker)
       (set_tag main_bytes (mkFrame (mkSlice 0 12) (mkSlice 12 3)) GoAway)
       (mkFrame (mkSlice 0 12) (mkSlice 12 3)))) = Some GoAway.
Proof.
  split; [reflexivity|].
  apply (set_tag_reparse (T := DataMarker) main_bytes _ GoAway). reflexivity.
Defined.

(** Two [set_tag] calls on the same frame leave the buffer as the second
    one alone would: the last tag written wins. *)
Theorem set_tag_last_wins (st : list Z) (f : Frame) (t1 t2 : Tag) :
  set_tag (set_tag st f t1) f t2 = set_tag st f t2.
Proof. unfold set_tag. apply store_write_store_write. Qed.

(** On a parsed frame, [Frame::version] is the buffer's byte 0 and
    [Frame::length] decodes bytes 8..11 most significant first; on a
    buffer of bytes that value is a [u32]. *)
Theorem frame_accessors_decode {T} (st : list Z) (f : Frame) :
  parse (T := T) st (buffer st) = Some f ->
  Forall (fun b => 0 <= b < 256) st ->
  version_0 (frame_version (T := T) st f) = nth 0 st 0
  /\ Len_val (frame_length (T := T) st f)
     = nth 8 st 0 * 16777216 + nth 9 st 0 * 65536 + nth 10 st 0 * 256 + nth 11 st 0
  /\ 0 <= Len_val (frame_length (T := T) st f) < 4294967296.
Proof.
  intros Hp Hbytes.
  destruct (parse_buffer_Some st f Hp) as (Hlen & Hh & _).
  rewrite Forall_forall in Hbytes.
  assert (Hn : forall i, (i < 12)%nat -> 0 <= nth i st 0 < 256)
    by (intros i Hi; apply Hbytes, nth_In; lia).
  unfold frame_version, frame_length, frame_header, Header_from_bytes,
    slice_bytes, Len_val, U32_get.
  rewrite Hh. cbn [version length len_0 version_0 u32_b0 u32_b1 u32_b2 u32_b3
                   off len skipn].
  rewrite !nth_firstn. cbn [Nat.ltb Nat.leb].
  split; [reflexivity|]. split; [reflexivity|].
  pose proof (Hn 8%nat ltac:(lia)). pose proof (Hn 9%nat ltac:(lia)).
  pose proof (Hn 10%nat ltac:(lia)). pose proof (Hn 11%nat ltac:(lia)).
  lia.
Qed.

Lemma frame_accessors_decode_witness :
  parse (T := DataMarker) main_bytes (buffer main_bytes)
    = Some (mkFrame (mkSlice 0 12) (mkSlice 12 3))
  /\ Forall (fun b => 0 <= b < 256) main_bytes
  /\ Len_val (frame_length (T := DataMarker) main_bytes
               (mkFrame (mkSlice 0 12) (mkSlice 12 3))) = 3.
Proof.
  assert (Hb : Forall (fun b => 0 <= b < 256) main_bytes)
    by (repeat constructor; lia).
  split; [reflexivity|]. split; [exact Hb|].
  destruct (frame_accessors_decode (T := DataMarker) main_bytes
              (mkFrame (mkSlice 0 12) (mkSlice 12 3)) eq_refl Hb)
    as (_ & E & _).
  rewrite E. reflexivity.
Defined.
